(** * The Math block of editorjs-math ([src/index.js])

    A shallow embedding of the [Math] class: its data record, its view
    container, the two guarded collaborator calls, and the host-facing
    hooks ([validate], [save], [merge], [onPaste], [render], the
    double-click toggle). *)

From Stdlib Require Import NArith Ascii String.
From stdpp Require Import base option list strings gmap.

Set Warnings "-register-all".
Local Open Scope string_scope.

(** ** JavaScript strings *)

(** A JavaScript string is a sequence of UTF-16 code units. *)
Definition jsstring := list N.

(** A literal of the source, code unit by code unit. *)
Definition js (s : string) : jsstring :=
  N_of_ascii <$> list_ascii_of_string s.

(** [''] *)
Definition emptyString : jsstring := [].

(** ECMAScript [WhiteSpace] and [LineTerminator] code units: exactly what
    [String.prototype.trim] strips. *)
Definition isWhiteSpace (c : N) : bool :=
  ((c =? 0x09) || (c =? 0x0A) || (c =? 0x0B) || (c =? 0x0C) || (c =? 0x0D)
   || (c =? 0x20) || (c =? 0xA0) || (c =? 0x1680)
   || ((0x2000 <=? c) && (c <=? 0x200A))
   || (c =? 0x2028) || (c =? 0x2029) || (c =? 0x202F) || (c =? 0x205F)
   || (c =? 0x3000) || (c =? 0xFEFF))%N.

Fixpoint trimStart (s : jsstring) : jsstring :=
  match s with
  | c :: r => if isWhiteSpace c then trimStart r else s
  | [] => []
  end.

Definition trimEnd (s : jsstring) : jsstring := rev (trimStart (rev s)).

(** [s.trim()] *)
Definition trim (s : jsstring) : jsstring := trimEnd (trimStart s).

(** ** JavaScript values and records *)

(** The values a [text] property holds: a string ([MathData] declares it
    a [String]), or nothing. *)
Inductive jsval :=
| JUndefined
| JNull
| JString (s : jsstring).

#[global] Instance jsval_eq_dec : EqDecision jsval.
Proof. solve_decision. Defined.

(** An object is its own properties. *)
Abbreviation obj := (gmap string jsval).

(** [o.k]: reading a missing property gives [undefined]. *)
Definition get (o : obj) (k : string) : jsval := default JUndefined (o !! k).

(** Truthiness of a value: [undefined], [null] and [''] are falsy. *)
Definition truthy (v : jsval) : bool :=
  match v with
  | JString (_ :: _) => true
  | _ => false
  end.

(** [a || b] *)
Definition js_or (a b : jsval) : jsval := if truthy a then a else b.

(** Conversion of a value assigned to [innerHTML], whose IDL type is
    [[LegacyNullToEmptyString] DOMString]. *)
Definition toDOMString (v : jsval) : jsstring :=
  match v with
  | JUndefined => js "undefined"
  | JNull => []
  | JString s => s
  end.

(** How a call completes: normally with a value, or by throwing. *)
Inductive completion (A : Type) :=
| Normal (a : A)
| Throw (e : jsstring).
Arguments Normal {A} a.
Arguments Throw {A} e.

(** ** [validate] *)

(** [savedData.text.trim() === ''] gives [false], anything else [true];
    reading [trim] off [undefined] or [null] is a [TypeError]. *)
Definition validate (savedData : obj) : completion bool :=
  match get savedData "text" with
  | JString s =>
      if decide (trim s = []) then Normal false else Normal true
  | _ => Throw (js "TypeError")
  end.

(** ** The DOM, as far as the block touches it *)

Inductive node :=
| TextNode (data : jsstring)
| ElementNode (tag : jsstring) (attrs : list (jsstring * jsstring))
    (children : list node).

(** The two callbacks the block registers on its container. *)
Inductive Handler := HOnKeyUp | HOnClick.

(** An element the program holds a reference to. *)
Record Element := {
  tagName : jsstring;
  attributes : list (jsstring * jsstring);
  childNodes : list node;
  listeners : list (jsstring * Handler)
}.

Definition toNode (e : Element) : node :=
  ElementNode (tagName e) (attributes e) (childNodes e).

(** [document.createElement(tag)] *)
Definition createElement (tag : jsstring) : Element :=
  {| tagName := tag; attributes := []; childNodes := []; listeners := [] |}.

Definition with_childNodes (ks : list node) (e : Element) : Element :=
  {| tagName := tagName e; attributes := attributes e; childNodes := ks;
     listeners := listeners e |}.

Fixpoint put_attr (k v : jsstring) (l : list (jsstring * jsstring))
  : list (jsstring * jsstring) :=
  match l with
  | [] => [(k, v)]
  | (k', v') :: r =>
      if decide (k' = k) then (k, v) :: r else (k', v') :: put_attr k v r
  end.

Definition setAttribute (k v : jsstring) (e : Element) : Element :=
  {| tagName := tagName e; attributes := put_attr k v (attributes e);
     childNodes := childNodes e; listeners := listeners e |}.

Definition addEventListener (type : jsstring) (h : Handler) (e : Element)
  : Element :=
  {| tagName := tagName e; attributes := attributes e;
     childNodes := childNodes e; listeners := listeners e ++ [(type, h)] |}.

(** The elements of a subtree, root first, in tree order. *)
Fixpoint elementsOf (n : node) : list node :=
  match n with
  | TextNode _ => []
  | ElementNode _ _ ks => n :: flat_map elementsOf ks
  end.

Definition hasTag (name : jsstring) (n : node) : bool :=
  match n with
  | TextNode _ => false
  | ElementNode t _ _ => bool_decide (t = name)
  end.

(** [e.getElementsByTagName(name)]: the descendant elements of that name,
    in tree order; [e] itself is not among them. *)
Definition getElementsByTagName (name : jsstring) (e : Element) : list node :=
  List.filter (hasTag name) (flat_map elementsOf (childNodes e)).

(** [n.textContent]: the data of the text nodes below, concatenated. *)
Fixpoint nodeText (n : node) : jsstring :=
  match n with
  | TextNode d => d
  | ElementNode _ _ ks => flat_map nodeText ks
  end.

Definition textContent (e : Element) : jsstring :=
  flat_map nodeText (childNodes e).

(** What the platform computes and the block only calls: parsing of a
    markup string assigned to [innerHTML] (in the context of the element
    of the given name), the serialising getters, and the rendered text. *)
Record Browser := {
  parseFragment : jsstring -> jsstring -> list node;
  innerHTML : Element -> jsstring;
  outerHTML : node -> jsstring;
  innerText : Element -> jsstring
}.

(** [e.innerHTML = markup] *)
Definition set_innerHTML (B : Browser) (markup : jsstring) (e : Element)
  : Element :=
  with_childNodes (parseFragment B (tagName e) markup) e.

(** ** The two collaborators, global handles on [window] *)

Inductive Parenthesis := keep | auto | all.

(** [window.math]: [parse(text)] gives an expression whose
    [toTex(options)] is its TeX; either call may throw. *)
Record MathJS := {
  MathNode : Type;
  parse : jsval -> completion MathNode;
  toTex : MathNode -> Parenthesis -> completion jsstring
}.

(** [window.MathJax] *)
Record MathJaxLib := {
  Metrics : Type;
  getMetricsFor : Element -> bool -> completion Metrics;
  tex2svg : jsstring -> Metrics -> completion Element
}.

(** A handle is [None] until its script has loaded. *)
Record Window := {
  math : option MathJS;
  MathJax : option MathJaxLib
}.

(** ** The block *)

(** [{text: v}] *)
Definition record (v : jsval) : obj := {[ "text" := v ]}.

(** What the host hands to the constructor. *)
Inductive jsdata :=
| DUndefined
| DNull
| DObject (o : obj).

Record Config := { placeholder : jsval }.
Record API := { styles_block : jsstring }.

(** The paste event: [event.detail.data] is the pasted element. *)
Record PasteEvent := { detail_data : Element }.

Record CSS := { block : jsstring; wrapper : jsstring }.

(** The fields of a [Math] instance; [mathNode] is unset until the first
    render pass. *)
Record Math := {
  api : API;
  _CSS : CSS;
  _placeholder : jsstring;
  _data : obj;
  _element : Element;
  mathNode : option Element
}.

Definition with_data (d : obj) (t : Math) : Math :=
  {| api := api t; _CSS := _CSS t; _placeholder := _placeholder t;
     _data := d; _element := _element t; mathNode := mathNode t |}.

Definition with_element (e : Element) (t : Math) : Math :=
  {| api := api t; _CSS := _CSS t; _placeholder := _placeholder t;
     _data := _data t; _element := e; mathNode := mathNode t |}.

Definition with_mathNode (m : Element) (t : Math) : Math :=
  {| api := api t; _CSS := _CSS t; _placeholder := _placeholder t;
     _data := _data t; _element := _element t; mathNode := Some m |}.

(** The instance together with what [console.error] has printed. *)
Record Machine := {
  this : Math;
  console : list jsstring
}.

(** A method that may log and may throw; what it did to the state before
    throwing stays done. *)
Definition M (A : Type) : Type := Machine -> completion A * Machine.

#[global] Instance M_ret : MRet M := fun A a s => (Normal a, s).

#[global] Instance M_bind : MBind M := fun A B f m s =>
  match m s with
  | (Normal a, s') => f a s'
  | (Throw e, s') => (Throw e, s')
  end.

Definition gets {A} (f : Math -> A) : M A := fun s => (Normal (f (this s)), s).

Definition modify (f : Math -> Math) : M unit := fun s =>
  (Normal tt, {| this := f (this s); console := console s |}).

(** The completion of a call into a collaborator. *)
Definition call {A} (c : completion A) : M A := fun s => (c, s).

(** [try { body } catch (e) { handler }] *)
Definition try_catch {A} (body : M A) (handler : jsstring -> M A) : M A :=
  fun s =>
    match body s with
    | (Normal a, s') => (Normal a, s')
    | (Throw e, s') => handler e s'
    end.

(** [console.error(msg)] *)
Definition console_error (msg : jsstring) : M unit := fun s =>
  (Normal tt, {| this := this s; console := console s ++ [msg] |}).

(** [static get DEFAULT_PLACEHOLDER()] *)
Definition DEFAULT_PLACEHOLDER : jsstring := emptyString.

(** [static get conversionConfig()] *)
Definition conversionConfig : list (string * jsstring) :=
  [("export", js "text"); ("import", js "text")].

(** [static get sanitize()]: in [text], line breaks and [svg] pass. *)
Definition sanitize : list (string * list (jsstring * bool)) :=
  [("text", [(js "br", true); (js "svg", true)])].

(** [static get pasteConfig()] *)
Definition pasteConfig : list (string * list jsstring) :=
  [("tags", [js "P"])].

Section MathBlock.

Variable B : Browser.
Variable W : Window.

(** [get data()] *)
Definition data (t : Math) : obj := _data t.

(** [set data(data)]: [this._data = data || {}], then
    [this._element.innerHTML = this._data.text || '']. *)
Definition set_data (d : jsdata) (t : Math) : Math :=
  let t := with_data (match d with DObject o => o | _ => ∅ end) t in
  with_element
    (set_innerHTML B (toDOMString (js_or (get (_data t) "text") (JString emptyString)))
       (_element t)) t.

(** [drawView()] *)
Definition drawView (css : CSS) (ph : jsstring) : Element :=
  let div := createElement (js "div") in
  let div := setAttribute (js "class") (wrapper css ++ js " " ++ block css)%list div in
  let div := setAttribute (js "contenteditable") (js "true") div in
  let div := setAttribute (js "data-placeholder") ph div in
  addEventListener (js "keyup") HOnKeyUp div.

(** [new Math({data, config, api})] *)
Definition constructor (d : jsdata) (config : Config) (a : API) : Math :=
  let css := {| block := styles_block a; wrapper := js "ce-Math" |} in
  let ph := if truthy (placeholder config)
            then toDOMString (placeholder config) else DEFAULT_PLACEHOLDER in
  let t := {| api := a; _CSS := css; _placeholder := ph; _data := ∅;
              _element := drawView css ph; mathNode := None |} in
  set_data d t.

(** [ifSVGRendered()] *)
Definition ifSVGRendered (t : Math) : bool :=
  let hasTexContent := getElementsByTagName (js "svg") (_element t) in
  (0 <? length hasTexContent)%nat.

(** [onKeyUp(e)], on the event's [code]. *)
Definition onKeyUp (code : jsstring) (t : Math) : Math :=
  let t := with_element
             (setAttribute (js "contenteditable")
                (if negb (ifSVGRendered t) then js "true" else js "false")
                (_element t)) t in
  if bool_decide (code ≠ js "Backspace") && bool_decide (code ≠ js "Delete")
  then t
  else if decide (textContent (_element t) = emptyString)
       then with_element (set_innerHTML B emptyString (_element t)) t
       else t.

(** [enableEditing()] *)
Definition enableEditing (t : Math) : Math :=
  let textNode := createElement (js "div") in
  let textNode := setAttribute (js "contenteditable") (js "true") textNode in
  let textNode := set_innerHTML B (toDOMString (get (data t) "text")) textNode in
  with_element (set_innerHTML B (outerHTML B (toNode textNode)) (_element t)) t.

(** [getTexSyntax(mathNode)]. The source writes into the element it is
    handed, which is [this.mathNode]; here the element written is
    returned, and the caller stores it back. *)
Definition getTexSyntax (mathNode : Element) : M Element :=
  match math W with
  | None => console_error (js "not initiated mathjs");; mret mathNode
  | Some mathjs =>
      text ← gets (fun t => get (data t) "text");
      try_catch
        (n ← call (parse mathjs text);
         tex ← call (toTex mathjs n keep);
         mret (set_innerHTML B tex mathNode))
        (fun e => mret (set_innerHTML B (toDOMString text) mathNode))
  end.

(** [textToSVG(mathNode)] *)
Definition textToSVG (mathNode : Element) : M unit :=
  match MathJax W with
  | None => console_error (js "not initiated mathJax")
  | Some mathjax =>
      options ← call (getMetricsFor mathjax mathNode true);
      texNode ← call (tex2svg mathjax (innerText B mathNode) options);
      let svgNode : option node := head (getElementsByTagName (js "svg") texNode) in
      modify (fun t =>
        with_element
          (set_innerHTML B
             (match svgNode with
              | Some svg => outerHTML B svg
              | None => innerHTML B (_element t)
              end)
             (_element t)) t)
  end.

(** [renderSVG()] *)
Definition renderSVG : M unit :=
  modify (fun t =>
    with_data
      (<["text" := js_or (JString (innerText B (_element t))) (get (data t) "text")]>
         (data t)) t);;
  modify (fun t =>
    with_mathNode (default (createElement (js "img")) (mathNode t)) t);;
  m ← gets (fun t => default (createElement (js "img")) (mathNode t));
  m' ← getTexSyntax m;
  modify (with_mathNode m');;
  textToSVG m'.

(** [onClick()], the double-click toggle. *)
Definition onClick : M unit :=
  rendered ← gets ifSVGRendered;
  if rendered : bool then modify enableEditing else renderSVG.

(** [render()] *)
Definition render : M Element :=
  renderSVG;;
  modify (fun t =>
    with_element (addEventListener (js "dblclick") HOnClick (_element t)) t);;
  gets _element.

(** [merge(data)]: [this.data = this.data]. *)
Definition merge (d : jsdata) (t : Math) : Math :=
  set_data (DObject (data t)) t.

(** [save(toolsContent)] *)
Definition save (toolsContent : Element) (t : Math) : obj :=
  record (get (data t) "text").

(** [onPaste(event)] *)
Definition onPaste (event : PasteEvent) (t : Math) : Math :=
  let d := record (JString (innerHTML B (detail_data event))) in
  set_data (DObject d) t.

End MathBlock.

(** ** A small browser, for the scenarios

    An instance of [Browser] that parses and serialises plain tag markup:
    text, the named character references the serialiser writes,
    start tags with double-quoted attributes, end tags and void elements.
    An element outside a document is not rendered, so its [innerText] is
    its [textContent]. *)
Module SmallBrowser.

Definition voidTags : list jsstring :=
  js <$> ["area"; "base"; "br"; "col"; "embed"; "hr"; "img"; "input";
          "link"; "meta"; "source"; "track"; "wbr"].

Definition isVoid (t : jsstring) : bool := bool_decide (t ∈ voidTags).

Definition escapeText (s : jsstring) : jsstring :=
  flat_map (fun c : N =>
    if (c =? 38)%N then js "&amp;"
    else if (c =? 60)%N then js "&lt;"
    else if (c =? 62)%N then js "&gt;"
    else if (c =? 160)%N then js "&nbsp;"
    else [c]) s.

Definition escapeAttr (s : jsstring) : jsstring :=
  flat_map (fun c : N =>
    if (c =? 38)%N then js "&amp;"
    else if (c =? 34)%N then js "&quot;"
    else if (c =? 160)%N then js "&nbsp;"
    else [c]) s.

Definition serializeAttr (kv : jsstring * jsstring) : jsstring :=
  (js " " ++ kv.1 ++ js "=" ++ [34%N] ++ escapeAttr kv.2 ++ [34%N])%list.

Fixpoint serializeNode (n : node) : jsstring :=
  match n with
  | TextNode d => escapeText d
  | ElementNode t a ks =>
      (js "<" ++ t ++ flat_map serializeAttr a ++ js ">"
       ++ (if isVoid t then []
           else flat_map serializeNode ks ++ js "</" ++ t ++ js ">"))%list
  end.

(** Is [p] a prefix of [s]? Then what follows it. *)
Fixpoint strip_prefix (p s : jsstring) : option jsstring :=
  match p, s with
  | [], _ => Some s
  | a :: p', b :: s' => if (a =? b)%N then strip_prefix p' s' else None
  | _ :: _, [] => None
  end.

Definition references : list (jsstring * N) :=
  [(js "amp;", 38%N); (js "lt;", 60%N); (js "gt;", 62%N);
   (js "quot;", 34%N); (js "nbsp;", 160%N)].

(** The reference that starts [s] (after its ampersand), if any. *)
Fixpoint reference_at (refs : list (jsstring * N)) (s : jsstring)
  : option (N * nat) :=
  match refs with
  | [] => None
  | (name, c) :: r =>
      match strip_prefix name s with
      | Some _ => Some (c, length name)
      | None => reference_at r s
      end
  end.

(** Character references decoded; [skip] counts the code units of a
    reference still to be dropped. *)
Fixpoint unescape (skip : nat) (s : jsstring) : jsstring :=
  match s with
  | [] => []
  | c :: r =>
      match skip with
      | S k => unescape k r
      | O =>
          if (c =? 38)%N
          then match reference_at references r with
               | Some (d, n) => d :: unescape n r
               | None => c :: unescape O r
               end
          else c :: unescape O r
      end
  end.

(** [s] cut at each occurrence of [sep] outside double quotes. *)
Fixpoint split_on (sep : N) (quoted : bool) (s : jsstring) : list jsstring :=
  match s with
  | [] => [[]]
  | c :: r =>
      if (c =? sep)%N && negb quoted then [] :: split_on sep quoted r
      else
        let quoted := if (c =? 34)%N then negb quoted else quoted in
        match split_on sep quoted r with
        | w :: ws => (c :: w) :: ws
        | [] => [[c]]
        end
  end.

Definition unquote (s : jsstring) : jsstring :=
  List.filter (fun c : N => negb (c =? 34)%N) s.

(** One [name="value"] of a start tag. *)
Definition parseAttr (w : jsstring) : jsstring * jsstring :=
  match split_on 61%N false w with
  | k :: v :: _ => (k, unescape O (unquote v))
  | k :: [] => (k, [])
  | [] => (w, [])
  end.

Definition isWord (w : jsstring) : bool :=
  negb (bool_decide (w = [])) && negb (bool_decide (w = js "/")).

(** An element still open: its name, attributes and earlier siblings
    (last first). *)
Definition frame : Type :=
  jsstring * list (jsstring * jsstring) * list node.

Record builder := {
  text_acc : jsstring;            (* text read so far, last first *)
  tag_acc : option jsstring;      (* inside a tag: what was read of it *)
  current : list node;            (* children of the open element, last first *)
  open_elements : list frame
}.

Definition flush_text (b : builder) : list node :=
  match text_acc b with
  | [] => current b
  | acc => TextNode (unescape O (rev acc)) :: current b
  end.

Definition isTagStart (c : N) : bool :=
  ((c =? 47) || ((65 <=? c) && (c <=? 90)) || ((97 <=? c) && (c <=? 122)))%N.

Definition isOpen (t : jsstring) (st : list frame) : bool :=
  existsb (fun f : frame => bool_decide (f.1.1 = t)) st.

(** The open elements closed down to, and with, the innermost [t]. *)
Fixpoint close_to (t : jsstring) (kids : list node) (st : list frame)
  : list node * list frame :=
  match st with
  | [] => (kids, [])
  | (t', a, sib) :: st' =>
      let closed := ElementNode t' a (rev kids) :: sib in
      if bool_decide (t' = t) then (closed, st') else close_to t closed st'
  end.

Definition at_text (kids : list node) (st : list frame) : builder :=
  {| text_acc := []; tag_acc := None; current := kids; open_elements := st |}.

(** The tag whose body (between the angle brackets) is [body]: an end
    tag closes its element if one is open and is dropped otherwise. *)
Definition end_of_tag (body : jsstring) (b : builder) : builder :=
  let kids := flush_text b in
  match body with
  | 47%N :: t =>
      if isOpen t (open_elements b)
      then let r := close_to t kids (open_elements b) in at_text r.1 r.2
      else at_text kids (open_elements b)
  | _ =>
      match List.filter isWord (split_on 32%N false body) with
      | t :: ws =>
          let a := parseAttr <$> ws in
          if isVoid t
          then at_text (ElementNode t a [] :: kids) (open_elements b)
          else at_text [] ((t, a, kids) :: open_elements b)
      | [] => at_text kids (open_elements b)
      end
  end.

Definition step (b : builder) (c : N) : builder :=
  match tag_acc b with
  | None =>
      if (c =? 60)%N
      then {| text_acc := text_acc b; tag_acc := Some [];
              current := current b; open_elements := open_elements b |}
      else {| text_acc := c :: text_acc b; tag_acc := None;
              current := current b; open_elements := open_elements b |}
  | Some [] =>
      if isTagStart c
      then {| text_acc := text_acc b; tag_acc := Some [c];
              current := current b; open_elements := open_elements b |}
      else {| text_acc := c :: 60%N :: text_acc b; tag_acc := None;
              current := current b; open_elements := open_elements b |}
  | Some acc =>
      if (c =? 62)%N then end_of_tag (rev acc) b
      else {| text_acc := text_acc b; tag_acc := Some (c :: acc);
              current := current b; open_elements := open_elements b |}
  end.

(** At the end of the input every element still open is closed. *)
Fixpoint close_all (kids : list node) (st : list frame) : list node :=
  match st with
  | [] => rev kids
  | (t, a, sib) :: st' => close_all (ElementNode t a (rev kids) :: sib) st'
  end.

Definition parse_markup (markup : jsstring) : list node :=
  let b := fold_left step markup
             {| text_acc := []; tag_acc := None; current := [];
                open_elements := [] |} in
  close_all (flush_text b) (open_elements b).

Definition browser : Browser :=
  {| parseFragment := fun _ markup => parse_markup markup;
     innerHTML := fun e =>
       if isVoid (tagName e) then [] else flat_map serializeNode (childNodes e);
     outerHTML := serializeNode;
     innerText := textContent |}.

End SmallBrowser.


(** ** Scenarios: a host, stub collaborators, a block *)
Module Scenario.

Definition hostAPI : API := {| styles_block := js "cdx-block" |}.
Definition noConfig : Config := {| placeholder := JUndefined |}.

(** A typeset result: a container holding one graphic. *)
Definition typeset_graphic : Element :=
  {| tagName := js "mjx-container";
     attributes := [(js "class", js "MathJax"); (js "jax", js "SVG")];
     childNodes := [ElementNode (js "svg") [(js "role", js "img")]
                      [ElementNode (js "g") [] []]];
     listeners := [] |}.

(** A typesetter that answers every markup, the empty one too, with a
    graphic. *)
Definition drawingJax : MathJaxLib :=
  {| Metrics := unit;
     getMetricsFor := fun _ _ => Normal tt;
     tex2svg := fun _ _ => Normal typeset_graphic |}.

(** A typesetter whose result holds no graphic. *)
Definition blankJax : MathJaxLib :=
  {| Metrics := unit;
     getMetricsFor := fun _ _ => Normal tt;
     tex2svg := fun _ _ => Normal (createElement (js "mjx-container")) |}.

(** A parser that rejects whatever it is given. *)
Definition rejectingMath : MathJS :=
  {| MathNode := unit;
     parse := fun _ => Throw (js "SyntaxError");
     toTex := fun _ _ => Normal emptyString |}.

(** A block constructed on saved data [{text: s}]. *)
Definition blockOn (s : string) : Math :=
  constructor SmallBrowser.browser (DObject (record (JString (js s))))
    noConfig hostAPI.

(** The machine at the start: the block, nothing logged. *)
Definition boot (t : Math) : Machine := {| this := t; console := [] |}.

(** Only the typesetter has loaded, and it draws. *)
Definition typesetterOnly : Window :=
  {| math := None; MathJax := Some drawingJax |}.

(** Only the typesetter has loaded, and its results hold no graphic. *)
Definition blankTypesetterOnly : Window :=
  {| math := None; MathJax := Some blankJax |}.

(** Both have loaded; the parser rejects, the typesetter draws. *)
Definition rejectingParser : Window :=
  {| math := Some rejectingMath; MathJax := Some drawingJax |}.

(** The block on [x^2] after one render pass there: it shows a graphic. *)
Definition renderedBlock : Math :=
  this (renderSVG SmallBrowser.browser typesetterOnly (boot (blockOn "x^2"))).2.

(** A parser that accepts every string and gives it back between braces;
    anything else it rejects. *)
Definition bracingMath : MathJS :=
  {| MathNode := jsstring;
     parse := fun v => match v with
                       | JString t => Normal t
                       | _ => Throw (js "TypeError")
                       end;
     toTex := fun n _ => Normal (js "{" ++ n ++ js "}")%list |}.

(** Both have loaded; the parser accepts, the typesetter draws. *)
Definition allLoaded : Window :=
  {| math := Some bracingMath; MathJax := Some drawingJax |}.

(** A pasted paragraph holding [<b>3</b>]. *)
Definition pasted_bold : PasteEvent :=
  {| detail_data :=
       {| tagName := js "p"; attributes := [];
          childNodes := [ElementNode (js "b") [] [TextNode (js "3")]];
          listeners := [] |} |}.

End Scenario.

(** A forest of nodes without an [svg] element anywhere in it. *)
Definition svgFree (ks : list node) : Prop :=
  List.filter (hasTag (js "svg")) (flat_map elementsOf ks) = [].

(** [n] lies somewhere below the nodes [ks]: it is one of them, or lies
    below the children of one of them. *)
Inductive below (n : node) : list node -> Prop :=
| below_child ks : In n ks -> below n ks
| below_deeper t a ks' ks :
    In (ElementNode t a ks') ks -> below n ks' -> below n ks.

(** The element holds a vector graphic: an [svg] element lies below it. *)
Definition holdsGraphic (e : Element) : Prop :=
  exists a ks, below (ElementNode (js "svg") a ks) (childNodes e).

(** The parser's answer on a text: the TeX, or what was thrown. *)
Definition texOf (mathjs : MathJS) (text : jsval) : completion jsstring :=
  match parse mathjs text with
  | Normal n => toTex mathjs n keep
  | Throw e => Throw e
  end.

(** The typesetter's answer on the math node: the typeset result, or what
    was thrown. *)
Definition typeset (B : Browser) (mathjax : MathJaxLib) (mathNode : Element)
  : completion Element :=
  match getMetricsFor mathjax mathNode true with
  | Normal options => tex2svg mathjax (innerText B mathNode) options
  | Throw e => Throw e
  end.

(** The text a render pass works on: what the container shows, or else
    the stored text. *)
Definition currentText (B : Browser) (t : Math) : jsval :=
  js_or (JString (innerText B (_element t))) (get (data t) "text").

(** The math node of a render pass: the one kept from an earlier pass, or
    a fresh [img]. *)
Definition currentMathNode (t : Math) : Element :=
  default (createElement (js "img")) (mathNode t).

(** The state a render pass hands to the typesetter step: the text
    captured, the math node written by the parser step, the log as the
    parser step leaves it. The container is as it was. *)
Definition beforeTypesetting (B : Browser) (W : Window) (s : Machine)
  : Element * Machine :=
  let text := currentText B (this s) in
  let m := currentMathNode (this s) in
  let m' := match math W with
            | None => m
            | Some mathjs =>
                set_innerHTML B
                  (match texOf mathjs text with
                   | Normal tex => tex
                   | Throw _ => toDOMString text
                   end) m
            end in
  (m',
   {| this := with_mathNode m'
                (with_data (<["text" := text]> (data (this s))) (this s));
      console := console s ++
                 match math W with
                 | None => [js "not initiated mathjs"]
                 | Some _ => []
                 end |}).

(** [e.getAttribute(k)] *)
Fixpoint get_attr (k : jsstring) (l : list (jsstring * jsstring))
  : option jsstring :=
  match l with
  | [] => None
  | (k', v) :: r => if decide (k' = k) then Some v else get_attr k r
  end.

Definition getAttribute (k : jsstring) (e : Element) : option jsstring :=
  get_attr k (attributes e).

(** [e'] is the element [e] with, at most, another content, another
    [contenteditable] flag and more listeners: the same tag, the other
    attributes as they were, the listeners of [e] still there, first. *)
Definition sameView (e e' : Element) : Prop :=
  tagName e' = tagName e /\
  (forall k, k <> js "contenteditable" -> getAttribute k e' = getAttribute k e) /\
  exists more, listeners e' = (listeners e ++ more)%list.

(** The block [t'] holds the fields of [t] that no method assigns. *)
Definition sameSetup (t t' : Math) : Prop :=
  api t' = api t /\ _CSS t' = _CSS t /\ _placeholder t' = _placeholder t.

(** * Properties *)

(** ** Trimming and [validate] *)

Lemma trimStart_nil (s : jsstring) :
  trimStart s = [] <-> forallb isWhiteSpace s = true.
Proof.
  induction s as [|c r IH]; simpl; [tauto|].
  destruct (isWhiteSpace c); simpl; [exact IH|].
  split; discriminate.
Qed.

(** What [trimStart] leaves does not start with white space. *)
Lemma trimStart_head (s : jsstring) :
  match trimStart s with
  | [] => True
  | c :: _ => isWhiteSpace c = false
  end.
Proof.
  induction s as [|c r IH]; simpl; [exact I|].
  destruct (isWhiteSpace c) eqn:E; [exact IH | exact E].
Qed.

Lemma forallb_rev {A} (f : A -> bool) (l : list A) :
  forallb f (rev l) = forallb f l.
Proof.
  induction l as [|x l IH]; simpl; [reflexivity|].
  rewrite forallb_app, IH. simpl. rewrite andb_true_r. apply andb_comm.
Qed.

Lemma trim_nil (s : jsstring) :
  trim s = [] <-> forallb isWhiteSpace s = true.
Proof.
  unfold trim, trimEnd. rewrite <- trimStart_nil. split.
  - intros H. apply (f_equal (@rev N)) in H. rewrite rev_involutive in H.
    simpl in H. apply trimStart_nil in H. rewrite forallb_rev in H.
    pose proof (trimStart_head s) as Hh.
    destruct (trimStart s) as [|c r]; [reflexivity|].
    simpl in H. rewrite Hh in H. discriminate.
  - intros ->. reflexivity.
Qed.

Lemma get_record (v : jsval) : get (record v) "text" = v.
Proof. unfold get, record. by rewrite lookup_singleton_eq. Qed.

Lemma get_insert_text (v : jsval) (o : obj) : get (<["text" := v]> o) "text" = v.
Proof. unfold get. by rewrite lookup_insert_eq. Qed.

(** C1. For a saved record whose [text] is a string [s], [validate]
    returns [false] exactly when [s] trimmed is the empty string, which is
    exactly when [s] is white space only (or empty), and returns [true]
    otherwise; so [validate({text: s})] is [true] for every [s] that is
    not all white space. *)
Theorem validate_false_iff_trimmed_empty (savedData : obj) (s : jsstring) :
  get savedData "text" = JString s ->
  (validate savedData = Normal false <-> trim s = []) /\
  (validate savedData = Normal true <-> trim s <> []) /\
  (trim s = [] <-> forallb isWhiteSpace s = true) /\
  (forallb isWhiteSpace s = false ->
   validate (record (JString s)) = Normal true) /\
  (forallb isWhiteSpace s = true ->
   validate (record (JString s)) = Normal false).
Proof.
  intros Ht. unfold validate. rewrite get_record, Ht.
  pose proof (trim_nil s) as Hn.
  destruct (decide (trim s = [])) as [E|E].
  - apply Hn in E as Hw.
    repeat split; try tauto; try congruence.
  - assert (Hw : forallb isWhiteSpace s <> true) by tauto.
    repeat split; try tauto; try congruence.
Qed.

Lemma validate_false_iff_trimmed_empty_witness :
  let s := js " x^2 " in
  (validate (<["id" := JNull]> (record (JString s))) = Normal true
   <-> trim s <> []) /\
  validate (record (JString s)) = Normal true.
Proof.
  intros s.
  destruct (validate_false_iff_trimmed_empty
              (<["id" := JNull]> (record (JString s))) s)
    as (_ & H2 & _ & H4 & _); [reflexivity|].
  split; [exact H2 | apply H4; reflexivity].
Defined.

(** ** The data setter, [save], [merge], [onPaste] *)

(** [v || ''], as written to [innerHTML]. *)
Lemma or_empty (v : jsval) :
  toDOMString (js_or v (JString emptyString)) =
  match v with JString s => s | _ => [] end.
Proof. destruct v as [| |[|c s]]; reflexivity. Qed.

Section Setter.

Variable B : Browser.

Lemma data_set_data (d : jsdata) (t : Math) :
  data (set_data B d t) = match d with DObject o => o | _ => ∅ end.
Proof. reflexivity. Qed.

Lemma element_set_data (d : jsdata) (t : Math) :
  _element (set_data B d t) =
  set_innerHTML B
    (match get (data (set_data B d t)) "text" with JString s => s | _ => [] end)
    (_element t).
Proof. unfold set_data. simpl. by rewrite or_empty. Qed.

Lemma childNodes_set_data (d : jsdata) (t : Math) :
  childNodes (_element (set_data B d t)) =
  parseFragment B (tagName (_element t))
    (match get (data (set_data B d t)) "text" with JString s => s | _ => [] end).
Proof. by rewrite element_set_data. Qed.

End Setter.

(** C4. Once the record is set to [{text: s}], by the setter or by the
    constructor, [save] returns the snapshot [{text: s}]; a block
    constructed on [{text: "2+2"}] and saved without rendering gives
    [{text: "2+2"}]; and [save] reads the record only: neither the
    container's content nor the view it is handed changes its result. *)
Theorem save_returns_stored_text (B : Browser) (s : jsstring) :
  (forall t view,
     save view (set_data B (DObject (record (JString s))) t)
     = record (JString s)) /\
  (forall config a view,
     save view (constructor B (DObject (record (JString s))) config a)
     = record (JString s)) /\
  (forall config a view,
     save view (constructor B (DObject (record (JString (js "2+2")))) config a)
     = record (JString (js "2+2"))) /\
  (forall t e view view', save view (with_element e t) = save view' t).
Proof.
  unfold save, constructor.
  repeat split; intros; rewrite ?data_set_data, ?get_record; reflexivity.
Qed.

(** C5. [merge] is the identity on the record: whatever comes in, the
    stored record after [merge] is the stored record before, and the
    incoming data plays no part in the result. *)
Theorem merge_leaves_record (B : Browser) (incoming : jsdata) (t : Math) :
  data (merge B incoming t) = data t /\
  (forall view, save view (merge B incoming t) = save view t) /\
  (forall incoming', merge B incoming' t = merge B incoming t).
Proof. repeat split. Qed.

(** C7. [onPaste] on an event whose element has inner markup [m] makes
    the record exactly [{text: m}], through the setter, so the container
    shows [m]; nothing of the record stored or of the content displayed
    before survives. Pasting [<b>3</b>] sets the record to
    [{text: "<b>3</b>"}]. *)
Theorem onPaste_replaces_record (B : Browser) (event : PasteEvent) (t : Math) :
  let m := innerHTML B (detail_data event) in
  onPaste B event t = set_data B (DObject (record (JString m))) t /\
  data (onPaste B event t) = record (JString m) /\
  childNodes (_element (onPaste B event t))
  = parseFragment B (tagName (_element t)) m /\
  (forall d ks,
     onPaste B event (with_data d (with_element (with_childNodes ks (_element t)) t))
     = onPaste B event t) /\
  (m = js "<b>3</b>" ->
   data (onPaste B event t) = record (JString (js "<b>3</b>"))).
Proof.
  intros m. unfold onPaste. fold m.
  repeat split.
  - rewrite childNodes_set_data, data_set_data, get_record. reflexivity.
  - intros ->. reflexivity.
Qed.

Lemma onPaste_replaces_record_witness :
  let t := Scenario.blockOn "2+2" in
  let t' := onPaste SmallBrowser.browser Scenario.pasted_bold t in
  data t' = record (JString (js "<b>3</b>")) /\
  childNodes (_element t') = [ElementNode (js "b") [] [TextNode (js "3")]].
Proof.
  intros t t'.
  destruct (onPaste_replaces_record SmallBrowser.browser
              Scenario.pasted_bold t)
    as (_ & _ & Hk & _ & Hd).
  split; [apply Hd; reflexivity | unfold t'; rewrite Hk; reflexivity].
Defined.

(** C2. The code breaks the claim on the ordinary new block: constructed
    on no data (or on a record without [text]), or assigned no data
    through the setter, the block stores the empty record, whose [text]
    is unset, not the empty string; [save] hands out [{text: undefined}],
    which is no [MathData], and [validate] on that snapshot throws. The
    setter's [|| ''] reaches the container only. *)
Lemma set_data_missing_text_unset :
  let t := set_data SmallBrowser.browser DUndefined (Scenario.blockOn "2+2") in
  let t0 := constructor SmallBrowser.browser (DObject ∅) Scenario.noConfig
              Scenario.hostAPI in
  let t1 := constructor SmallBrowser.browser DUndefined Scenario.noConfig
              Scenario.hostAPI in
  get (data t) "text" = JUndefined /\
  get (data t0) "text" = JUndefined /\
  get (data t1) "text" = JUndefined /\
  ~ (exists s, get (data t) "text" = JString s) /\
  get (data t1) "text" <> JString emptyString /\
  save (_element t) t = record JUndefined /\
  save (_element t1) t1 = record JUndefined /\
  validate (save (_element t1) t1) = Throw (js "TypeError") /\
  childNodes (_element t1) = [].
Proof.
  repeat split; try discriminate. intros [s Hs]. discriminate Hs.
Qed.

(** What the setter does, in full: it stores the record it is handed as
    it is, the empty record [{}] when handed none, so that the stored
    [text] is a string exactly when the supplied record's [text] is one
    (as it always is on paste), and it writes [text || ''] as the
    container's content. The constructor stores the same record. *)
Theorem set_data_stores_record_as_supplied (B : Browser) (d : jsdata) (t : Math) :
  let t' := set_data B d t in
  data t' = match d with DObject o => o | _ => ∅ end /\
  (forall s, get (data t') "text" = JString s <->
             exists o, d = DObject o /\ get o "text" = JString s) /\
  childNodes (_element t')
  = parseFragment B (tagName (_element t))
      (match get (data t') "text" with JString s => s | _ => [] end) /\
  (match d with DObject o => o !! "text" = None | _ => True end ->
   get (data t') "text" = JUndefined /\
   childNodes (_element t') = parseFragment B (tagName (_element t)) emptyString) /\
  (forall config a, data (constructor B d config a) = data t') /\
  (forall event,
     get (data (onPaste B event t)) "text"
     = JString (innerHTML B (detail_data event))).
Proof.
  intros t'. subst t'.
  split; [apply data_set_data|].
  split.
  { intros s. rewrite data_set_data. split.
    - destruct d as [| |o]; try discriminate. intros H. by exists o.
    - intros (o & -> & H). exact H. }
  split; [apply childNodes_set_data|].
  split.
  { intros Hd.
    assert (Hu : get (data (set_data B d t)) "text" = JUndefined).
    { rewrite data_set_data. destruct d as [| |o]; try reflexivity.
      unfold get. by rewrite Hd. }
    split; [exact Hu|]. by rewrite childNodes_set_data, Hu. }
  split; [reflexivity|].
  intros event. unfold onPaste. by rewrite data_set_data, get_record.
Qed.

Lemma set_data_stores_record_as_supplied_witness :
  let t' := set_data SmallBrowser.browser DNull (Scenario.blockOn "2+2") in
  get (data t') "text" = JUndefined /\ childNodes (_element t') = [].
Proof.
  destruct (set_data_stores_record_as_supplied SmallBrowser.browser DNull
              (Scenario.blockOn "2+2")) as (_ & _ & _ & H & _).
  exact (H I).
Defined.

(** C10. [merge] is seen on the container: its self-assignment goes
    through the setter, which writes the stored [text] (the empty string
    when unset) as the container's content; a graphic shown there is
    replaced by the stored text markup. *)
Theorem merge_rewrites_container (B : Browser) (incoming : jsdata) (t : Math) :
  let markup := match get (data t) "text" with JString s => s | _ => [] end in
  merge B incoming t = set_data B (DObject (data t)) t /\
  _element (merge B incoming t) = set_innerHTML B markup (_element t) /\
  childNodes (_element (merge B incoming t))
  = parseFragment B (tagName (_element t)) markup /\
  (ifSVGRendered t = true ->
   svgFree (parseFragment B (tagName (_element t)) markup) ->
   ifSVGRendered (merge B incoming t) = false /\
   _element (merge B incoming t) <> _element t).
Proof.
  intros markup. unfold merge.
  assert (He : _element (set_data B (DObject (data t)) t)
               = set_innerHTML B markup (_element t)).
  { rewrite element_set_data, data_set_data. reflexivity. }
  split; [reflexivity|]. split; [exact He|]. split; [by rewrite He|].
  intros Hr Hfree.
  assert (Hf : ifSVGRendered (set_data B (DObject (data t)) t) = false).
  { unfold ifSVGRendered, getElementsByTagName. rewrite He. simpl.
    unfold svgFree in Hfree. by rewrite Hfree. }
  split; [exact Hf|]. intros Heq.
  unfold ifSVGRendered in Hf, Hr. rewrite Heq in Hf. congruence.
Qed.

Lemma merge_rewrites_container_witness :
  let t := Scenario.renderedBlock in
  let t' := merge SmallBrowser.browser DUndefined t in
  ifSVGRendered t = true /\
  ifSVGRendered t' = false /\
  childNodes (_element t') = [TextNode (js "x^2")] /\
  data t' = data t.
Proof.
  intros t t'.
  destruct (merge_rewrites_container SmallBrowser.browser DUndefined t)
    as (_ & _ & Hk & Hr).
  destruct Hr as [Hf _]; [reflexivity | reflexivity |].
  split; [reflexivity|]. split; [exact Hf|].
  split; [unfold t'; rewrite Hk; reflexivity | reflexivity].
Defined.

(** ** The render pass *)

Section RenderPass.

Variable B : Browser.
Variable W : Window.

Lemma getTexSyntax_absent (m : Element) (s : Machine) :
  math W = None ->
  getTexSyntax B W m s
  = (Normal m, {| this := this s;
                  console := console s ++ [js "not initiated mathjs"] |}).
Proof. intros H. unfold getTexSyntax. by rewrite H. Qed.

Lemma getTexSyntax_present (mathjs : MathJS) (m : Element) (s : Machine) :
  math W = Some mathjs ->
  let text := get (data (this s)) "text" in
  getTexSyntax B W m s
  = (Normal (set_innerHTML B
               (match texOf mathjs text with
                | Normal tex => tex
                | Throw _ => toDOMString text
                end) m), s).
Proof.
  intros H text. unfold getTexSyntax. rewrite H.
  unfold texOf, try_catch, mbind, M_bind, gets, call, mret, M_ret. fold text.
  destruct (parse mathjs text) as [n|e]; [|reflexivity].
  by destruct (toTex mathjs n keep).
Qed.

Lemma textToSVG_absent (m : Element) (s : Machine) :
  MathJax W = None ->
  textToSVG B W m s
  = (Normal tt, {| this := this s;
                   console := console s ++ [js "not initiated mathJax"] |}).
Proof. intros H. unfold textToSVG. by rewrite H. Qed.

Lemma textToSVG_present (mathjax : MathJaxLib) (m : Element) (s : Machine) :
  MathJax W = Some mathjax ->
  textToSVG B W m s
  = match typeset B mathjax m with
    | Normal texNode =>
        (Normal tt,
         {| this :=
              with_element
                (set_innerHTML B
                   (match head (getElementsByTagName (js "svg") texNode) with
                    | Some svg => outerHTML B svg
                    | None => innerHTML B (_element (this s))
                    end) (_element (this s))) (this s);
            console := console s |})
    | Throw e => (Throw e, s)
    end.
Proof.
  intros H. unfold textToSVG. rewrite H.
  unfold typeset, mbind, M_bind, call, modify.
  destruct (getMetricsFor mathjax m true) as [o|e]; [|reflexivity].
  by destruct (tex2svg mathjax (innerText B m) o).
Qed.

Lemma renderSVG_steps (s : Machine) :
  renderSVG B W s
  = textToSVG B W (beforeTypesetting B W s).1 (beforeTypesetting B W s).2.
Proof.
  unfold renderSVG, beforeTypesetting.
  unfold mbind at 1 2 3. unfold M_bind at 1 2 3. unfold modify at 1 2, gets.
  simpl.
  destruct (math W) as [mathjs|] eqn:Hm.
  - unfold mbind at 1, M_bind at 1.
    rewrite (getTexSyntax_present mathjs) by exact Hm. simpl.
    unfold mbind, M_bind, modify. simpl.
    rewrite get_insert_text, app_nil_r. reflexivity.
  - unfold mbind at 1, M_bind at 1.
    rewrite getTexSyntax_absent by exact Hm. simpl.
    unfold mbind, M_bind, modify. simpl. reflexivity.
Qed.

End RenderPass.

Lemma with_childNodes_same (e : Element) : with_childNodes (childNodes e) e = e.
Proof. by destruct e. Qed.

(** C9. A render pass touches the container in its typesetter step only.
    With the typesetter's handle absent the container is left as it is
    and the pass completes normally. With a typeset result that holds no
    [svg] the pass completes normally and the container is assigned its
    own [innerHTML], so that its content is unchanged (as the browser
    reads its own serialisation back); only with an [svg] in the typeset
    result is the content replaced, by that graphic's markup. If the
    typesetter throws, the container is untouched as well. *)
Theorem container_replaced_only_by_graphic (B : Browser) (W : Window) (s : Machine) :
  let m := (beforeTypesetting B W s).1 in
  let s1 := (beforeTypesetting B W s).2 in
  let e := _element (this s) in
  renderSVG B W s = textToSVG B W m s1 /\
  _element (this s1) = e /\
  (MathJax W = None ->
   exists s', renderSVG B W s = (Normal tt, s') /\ _element (this s') = e) /\
  (forall mathjax texNode,
     MathJax W = Some mathjax -> typeset B mathjax m = Normal texNode ->
     exists s', renderSVG B W s = (Normal tt, s') /\
       match head (getElementsByTagName (js "svg") texNode) with
       | None =>
           _element (this s') = set_innerHTML B (innerHTML B e) e /\
           (parseFragment B (tagName e) (innerHTML B e) = childNodes e ->
            _element (this s') = e)
       | Some svg => _element (this s') = set_innerHTML B (outerHTML B svg) e
       end) /\
  (forall mathjax err,
     MathJax W = Some mathjax -> typeset B mathjax m = Throw err ->
     exists s', renderSVG B W s = (Throw err, s') /\ _element (this s') = e).
Proof.
  intros m s1 e.
  assert (Hr : renderSVG B W s = textToSVG B W m s1) by apply renderSVG_steps.
  assert (He : _element (this s1) = e) by reflexivity.
  rewrite Hr. repeat split.
  - intros Hj. rewrite textToSVG_absent by exact Hj. eexists. split; reflexivity.
  - intros mathjax texNode Hj Ht.
    rewrite (textToSVG_present B W mathjax) by exact Hj. rewrite Ht.
    eexists. split; [reflexivity|]. simpl. fold e.
    destruct (head (getElementsByTagName (js "svg") texNode)); [reflexivity|].
    split; [reflexivity|]. intros Hs. unfold set_innerHTML. rewrite Hs.
    apply with_childNodes_same.
  - intros mathjax err Hj Ht.
    rewrite (textToSVG_present B W mathjax) by exact Hj. rewrite Ht.
    eexists. split; reflexivity.
Qed.

Lemma container_replaced_only_by_graphic_witness :
  let s := Scenario.boot (Scenario.blockOn "x^2") in
  exists s',
    renderSVG SmallBrowser.browser Scenario.blankTypesetterOnly s = (Normal tt, s') /\
    _element (this s') = _element (this s).
Proof.
  intros s.
  destruct (container_replaced_only_by_graphic SmallBrowser.browser
              Scenario.blankTypesetterOnly s) as (_ & _ & _ & H & _).
  destruct (H Scenario.blankJax (createElement (js "mjx-container")))
    as (s' & Hr & _ & Hs); [reflexivity | reflexivity |].
  exists s'. split; [exact Hr | apply Hs; reflexivity].
Defined.

(** C8, as stated, fails on the logging: the parser throws on the text,
    the render pass completes, and nothing has been written to the
    console. *)
Lemma parse_failure_not_logged :
  let s := Scenario.boot (Scenario.blockOn "x^2") in
  let r := renderSVG SmallBrowser.browser Scenario.rejectingParser s in
  texOf Scenario.rejectingMath (currentText SmallBrowser.browser (this s))
  = Throw (js "SyntaxError") /\
  r.1 = Normal tt /\
  console r.2 = console s /\
  console r.2 = [] /\
  (getTexSyntax SmallBrowser.browser Scenario.rejectingParser
     (currentMathNode (this s)) s).2 = s.
Proof. repeat split. Qed.

(** C8, amended. When the parser throws on the current text during a
    render pass, [getTexSyntax] catches it and completes normally, having
    written the raw text into the math node as the intermediate markup in
    the TeX's place; nothing is logged and nothing else changes. The pass
    goes on to the typesetter step with that markup, so the parser's
    exception never reaches the host. *)
Theorem parse_failure_falls_back_to_raw_text
  (B : Browser) (W : Window) (mathjs : MathJS) (err : jsstring) (s : Machine) :
  math W = Some mathjs ->
  (forall m,
     texOf mathjs (get (data (this s)) "text") = Throw err ->
     getTexSyntax B W m s
     = (Normal (set_innerHTML B (toDOMString (get (data (this s)) "text")) m), s)) /\
  (let text := currentText B (this s) in
   let raw := set_innerHTML B (toDOMString text) (currentMathNode (this s)) in
   texOf mathjs text = Throw err ->
   exists s1,
     renderSVG B W s = textToSVG B W raw s1 /\
     mathNode (this s1) = Some raw /\
     childNodes raw = parseFragment B (tagName raw) (toDOMString text) /\
     get (data (this s1)) "text" = text /\
     console s1 = console s /\
     _element (this s1) = _element (this s)).
Proof.
  intros Hm. split.
  - intros m Ht. rewrite (getTexSyntax_present B W mathjs) by exact Hm.
    simpl. by rewrite Ht.
  - intros text raw Ht. exists (beforeTypesetting B W s).2.
    rewrite renderSVG_steps. unfold beforeTypesetting. rewrite Hm. fold text.
    rewrite Ht. fold raw. simpl.
    repeat split; [apply get_insert_text | apply app_nil_r].
Qed.

Lemma parse_failure_falls_back_to_raw_text_witness :
  let s := Scenario.boot (Scenario.blockOn "x^2") in
  exists s1,
    renderSVG SmallBrowser.browser Scenario.rejectingParser s
    = textToSVG SmallBrowser.browser Scenario.rejectingParser
        (with_childNodes [TextNode (js "x^2")] (createElement (js "img"))) s1 /\
    console s1 = [].
Proof.
  intros s.
  destruct (parse_failure_falls_back_to_raw_text SmallBrowser.browser
              Scenario.rejectingParser Scenario.rejectingMath
              (js "SyntaxError") s eq_refl) as [_ H].
  destruct (H eq_refl) as (s1 & Hr & _ & _ & _ & Hc & _).
  exists s1. split; [exact Hr | exact Hc].
Defined.

(** C3, as stated, fails: with the parser's handle absent and the
    typesetter loaded, the typesetter is run on the untouched math node
    and its graphic replaces the text [x^2] in the container. *)
Lemma render_without_parser_draws_graphic :
  let s := Scenario.boot (Scenario.blockOn "x^2") in
  let r := renderSVG SmallBrowser.browser Scenario.typesetterOnly s in
  math Scenario.typesetterOnly = None /\
  get (data (this s)) "text" = JString (js "x^2") /\
  childNodes (_element (this s)) = [TextNode (js "x^2")] /\
  ifSVGRendered (this s) = false /\
  r.1 = Normal tt /\
  ifSVGRendered (this r.2) = true /\
  childNodes (_element (this r.2))
  = [ElementNode (js "svg") [(js "role", js "img")] [ElementNode (js "g") [] []]] /\
  childNodes (_element (this r.2)) <> [TextNode (js "x^2")].
Proof. repeat split. discriminate. Qed.

(** C3, amended. With the parser's handle absent, a render pass on a
    block whose text is [x^2], shown as that literal text, logs the
    missing parser and, when the typesetter yields no graphic either (its
    handle is absent too, or the typeset result of the pass holds no
    [svg] and the browser reads the container's serialisation back as
    the same text), completes without throwing and leaves the container
    showing the literal text [x^2], not a graphic. *)
Theorem render_without_parser_keeps_text (B : Browser) (W : Window) (s : Machine) :
  math W = None ->
  get (data (this s)) "text" = JString (js "x^2") ->
  childNodes (_element (this s)) = [TextNode (js "x^2")] ->
  match MathJax W with
  | None => True
  | Some mathjax =>
      exists texNode,
        typeset B mathjax (beforeTypesetting B W s).1 = Normal texNode /\
        getElementsByTagName (js "svg") texNode = [] /\
        parseFragment B (tagName (_element (this s)))
          (innerHTML B (_element (this s))) = [TextNode (js "x^2")]
  end ->
  exists s',
    renderSVG B W s = (Normal tt, s') /\
    childNodes (_element (this s')) = [TextNode (js "x^2")] /\
    ifSVGRendered (this s') = false /\
    In (js "not initiated mathjs") (console s') /\
    get (data (this s')) "text"
    = js_or (JString (innerText B (_element (this s)))) (JString (js "x^2")).
Proof.
  intros Hm Ht Hk Hj.
  assert (Hsvg : forall e, childNodes e = [TextNode (js "x^2")] ->
                           getElementsByTagName (js "svg") e = []).
  { intros e He. unfold getElementsByTagName. by rewrite He. }
  rewrite renderSVG_steps. unfold beforeTypesetting in *. rewrite Hm in *.
  simpl in *. unfold currentText. rewrite Ht.
  destruct (MathJax W) as [mathjax|] eqn:Ej.
  - destruct Hj as (texNode & Hts & Hno & Hrt).
    rewrite (textToSVG_present B W mathjax) by exact Ej. rewrite Hts, Hno. simpl.
    eexists. split; [reflexivity|]. simpl.
    repeat split;
      [exact Hrt | | apply in_or_app; right; by left | apply get_insert_text].
    unfold ifSVGRendered. simpl. by rewrite Hsvg.
  - rewrite textToSVG_absent by exact Ej.
    eexists. split; [reflexivity|]. simpl.
    repeat split; [exact Hk | | | apply get_insert_text].
    + unfold ifSVGRendered. simpl. by rewrite (Hsvg _ Hk).
    + apply in_or_app; left. apply in_or_app; right. by left.
Qed.

Lemma render_without_parser_keeps_text_witness :
  let s := Scenario.boot (Scenario.blockOn "x^2") in
  exists s',
    renderSVG SmallBrowser.browser Scenario.blankTypesetterOnly s = (Normal tt, s') /\
    childNodes (_element (this s')) = [TextNode (js "x^2")] /\
    ifSVGRendered (this s') = false.
Proof.
  intros s.
  destruct (render_without_parser_keeps_text SmallBrowser.browser
              Scenario.blankTypesetterOnly s)
    as (s' & Hr & Hk & Hf & _); [reflexivity | reflexivity | reflexivity | |].
  - exists (createElement (js "mjx-container")). repeat split.
  - exists s'. repeat split; assumption.
Defined.

(** ** The toggle *)

(** Induction on nodes, with the hypothesis on every child. *)
Lemma node_nested_ind (P : node -> Prop) :
  (forall d, P (TextNode d)) ->
  (forall t a ks, Forall P ks -> P (ElementNode t a ks)) ->
  forall n, P n.
Proof.
  intros Htext Helem. fix IH 1. intros [d|t a ks].
  - apply Htext.
  - apply Helem. induction ks as [|k ks IHks]; constructor.
    + apply IH.
    + exact IHks.
Qed.

Lemma elementsOf_self_or_below (k n : node) :
  In n (elementsOf k) ->
  n = k \/ exists t a ks, k = ElementNode t a ks /\ below n ks.
Proof.
  revert n. induction k as [d|t a ks IH] using node_nested_ind; intros n Hn.
  - destruct Hn.
  - simpl in Hn. destruct Hn as [<-|Hn]; [by left|].
    right. exists t, a, ks. split; [reflexivity|].
    apply in_flat_map in Hn as (k & Hk & Hn).
    rewrite Forall_forall in IH.
    destruct (IH k (proj2 (list_elem_of_In _ _) Hk) n Hn)
      as [->|(t' & a' & ks' & -> & Hb)].
    + by apply below_child.
    + by apply (below_deeper n t' a' ks').
Qed.

Lemma elementsOf_head (t : jsstring) (a : list (jsstring * jsstring))
    (ks : list node) :
  In (ElementNode t a ks) (elementsOf (ElementNode t a ks)).
Proof. by left. Qed.

Lemma below_elementsOf (n : node) (ks : list node) :
  below n ks -> (exists t a ks', n = ElementNode t a ks') ->
  In n (flat_map elementsOf ks).
Proof.
  intros Hb (t & a & ks' & ->). induction Hb as [ks Hin|t' a' ks'' ks Hin Hb IH].
  - apply in_flat_map. eexists. split; [exact Hin | apply elementsOf_head].
  - apply in_flat_map. eexists. split; [exact Hin|]. simpl. by right.
Qed.

Lemma ifSVGRendered_holdsGraphic (t : Math) :
  ifSVGRendered t = true <-> holdsGraphic (_element t).
Proof.
  unfold ifSVGRendered, holdsGraphic, getElementsByTagName.
  set (ks := childNodes (_element t)). split.
  - intros H.
    destruct (List.filter (hasTag (js "svg")) (flat_map elementsOf ks))
      as [|n l] eqn:E; [discriminate|].
    assert (Hn : In n (List.filter (hasTag (js "svg")) (flat_map elementsOf ks)))
      by (rewrite E; by left).
    apply filter_In in Hn as [Hn Htag].
    destruct n as [d|tg a ks']; [discriminate|].
    simpl in Htag. apply bool_decide_eq_true in Htag as ->.
    exists a, ks'.
    apply in_flat_map in Hn as (k & Hk & Hn).
    destruct (elementsOf_self_or_below _ _ Hn) as [->|(t' & a' & ks'' & -> & Hb)].
    + by apply below_child.
    + by apply (below_deeper _ t' a' ks'').
  - intros (a & ks' & Hb).
    assert (Hn : In (ElementNode (js "svg") a ks')
                   (List.filter (hasTag (js "svg")) (flat_map elementsOf ks))).
    { apply filter_In. split; [|by apply bool_decide_eq_true].
      apply below_elementsOf; [exact Hb | by eexists _, _, _]. }
    destruct (List.filter (hasTag (js "svg")) (flat_map elementsOf ks));
      [destruct Hn | reflexivity].
Qed.

(** The editable wrapper around the stored text, as [enableEditing]
    builds it. *)
Lemma enableEditing_content (B : Browser) (t : Math) :
  childNodes (_element (enableEditing B t))
  = parseFragment B (tagName (_element t))
      (outerHTML B
         (ElementNode (js "div") [(js "contenteditable", js "true")]
            (parseFragment B (js "div") (toDOMString (get (data t) "text"))))).
Proof. reflexivity. Qed.

(** C6, as stated, fails on entering Editing: a block whose stored text
    is itself [svg] markup holds a graphic, and after the toggle has
    wrapped that text the container holds a graphic still. *)
Lemma toggle_keeps_graphic_of_text :
  let s := Scenario.boot (Scenario.blockOn "<svg></svg>") in
  let r := onClick SmallBrowser.browser Scenario.typesetterOnly s in
  get (data (this s)) "text" = JString (js "<svg></svg>") /\
  ifSVGRendered (this s) = true /\
  r.1 = Normal tt /\
  childNodes (_element (this r.2))
  = [ElementNode (js "div") [(js "contenteditable", js "true")]
       [ElementNode (js "svg") [] []]] /\
  ifSVGRendered (this r.2) = true /\
  holdsGraphic (_element (this r.2)).
Proof.
  repeat split. by apply ifSVGRendered_holdsGraphic.
Qed.

(** C6, amended. Being Rendered is holding a graphic: the block's test
    is true exactly when an [svg] element lies below the container. The
    toggle goes by that test. With a graphic, it resets the container's
    content to an editable wrapper (a [div] with [contenteditable="true"])
    around the stored text, the record and the log left as they are, and
    the block is then in Editing, no graphic left, provided the wrapped
    text holds no [svg] of its own; with none, it is a render pass. *)
Theorem toggle_dispatches_on_graphic (B : Browser) (W : Window) (s : Machine) :
  let wrapped :=
    parseFragment B (tagName (_element (this s)))
      (outerHTML B
         (ElementNode (js "div") [(js "contenteditable", js "true")]
            (parseFragment B (js "div")
               (toDOMString (get (data (this s)) "text"))))) in
  (ifSVGRendered (this s) = true <-> holdsGraphic (_element (this s))) /\
  (ifSVGRendered (this s) = true ->
   onClick B W s
   = (Normal tt, {| this := enableEditing B (this s); console := console s |}) /\
   childNodes (_element (enableEditing B (this s))) = wrapped /\
   data (enableEditing B (this s)) = data (this s) /\
   (svgFree wrapped -> ifSVGRendered (enableEditing B (this s)) = false)) /\
  (ifSVGRendered (this s) = false -> onClick B W s = renderSVG B W s).
Proof.
  intros wrapped. split; [apply ifSVGRendered_holdsGraphic|].
  unfold onClick, mbind, M_bind, gets, modify.
  split; intros ->; [|reflexivity].
  repeat split. intros Hfree.
  unfold ifSVGRendered, getElementsByTagName.
  rewrite enableEditing_content. fold wrapped.
  unfold svgFree in Hfree. by rewrite Hfree.
Qed.

Lemma toggle_dispatches_on_graphic_witness :
  let s := Scenario.boot Scenario.renderedBlock in
  let r := onClick SmallBrowser.browser Scenario.typesetterOnly s in
  holdsGraphic (_element (this s)) /\
  r.1 = Normal tt /\
  childNodes (_element (this r.2))
  = [ElementNode (js "div") [(js "contenteditable", js "true")]
       [TextNode (js "x^2")]] /\
  ifSVGRendered (this r.2) = false /\
  onClick SmallBrowser.browser Scenario.typesetterOnly r.2
  = renderSVG SmallBrowser.browser Scenario.typesetterOnly r.2.
Proof.
  intros s r.
  destruct (toggle_dispatches_on_graphic SmallBrowser.browser
              Scenario.typesetterOnly s) as (Hg & Hon & _).
  destruct (Hon eq_refl) as (Hr & Hk & _ & Hoff).
  destruct (toggle_dispatches_on_graphic SmallBrowser.browser
              Scenario.typesetterOnly r.2) as (_ & _ & Hrender).
  split; [apply Hg; reflexivity|].
  split; [unfold r; rewrite Hr; reflexivity|].
  split; [unfold r; rewrite Hr; etrans; [exact Hk | reflexivity]|].
  split; [unfold r; rewrite Hr; apply Hoff; reflexivity|].
  apply Hrender. reflexivity.
Defined.

(** * Further properties of the class *)

(** ** [validate] and [save] together *)

(** X1. [validate] has no answer for a record whose [text] is not a
    string: it throws a [TypeError]. So saving a block that was
    constructed on no data, or on a record without [text], and validating
    the snapshot throws instead of returning [false]. *)
Theorem validate_of_unset_text_throws
  (B : Browser) (d : jsdata) (config : Config) (a : API) (view : Element) :
  match d with
  | DObject o => forall s, get o "text" <> JString s
  | _ => True
  end ->
  validate (save view (constructor B d config a)) = Throw (js "TypeError") /\
  (forall o, (forall s, get o "text" <> JString s) ->
             validate o = Throw (js "TypeError")).
Proof.
  intros Hd.
  assert (Hv : forall o, (forall s, get o "text" <> JString s) ->
                         validate o = Throw (js "TypeError")).
  { intros o Ho. unfold validate.
    destruct (get o "text") as [| |s] eqn:E; try reflexivity.
    by destruct (Ho s). }
  split; [|exact Hv]. apply Hv. intros s.
  unfold save, constructor. rewrite get_record, data_set_data.
  destruct d as [| |o]; [discriminate | discriminate | apply Hd].
Qed.

Lemma validate_of_unset_text_throws_witness :
  validate (save (createElement (js "div"))
              (constructor SmallBrowser.browser DUndefined Scenario.noConfig
                 Scenario.hostAPI))
  = Throw (js "TypeError").
Proof.
  exact (proj1 (validate_of_unset_text_throws SmallBrowser.browser DUndefined
                  Scenario.noConfig Scenario.hostAPI
                  (createElement (js "div")) I)).
Defined.

(** X2. Save and load round trip: a block constructed on the snapshot
    another block saved holds exactly that snapshot as its record, saves
    the same snapshot again, and shows the snapshot's text (nothing when
    it is unset). A snapshot has the [text] field only: whatever else the
    stored record holds is not saved. *)
Theorem save_load_round_trip
  (B : Browser) (t : Math) (config : Config) (a : API) (view view' : Element) :
  let t' := constructor B (DObject (save view t)) config a in
  data t' = save view t /\
  save view' t' = save view t /\
  childNodes (_element t')
  = parseFragment B (js "div")
      (match get (data t) "text" with JString s => s | _ => [] end) /\
  (forall k, k <> "text" -> save view t !! k = None).
Proof.
  intros t'. subst t'. unfold save.
  split; [reflexivity|].
  split; [unfold constructor; by rewrite data_set_data, get_record|].
  split.
  - unfold constructor. rewrite childNodes_set_data, data_set_data, get_record.
    reflexivity.
  - intros k Hk. unfold record. by rewrite lookup_singleton_ne.
Qed.

(** ** How the setter composes *)

(** X3. The setter overwrites: of two assignments only the second shows,
    in the record and in the container alike. Hence a second paste
    replaces the first, and [merge] right after an assignment (or after
    another [merge]) changes nothing at all. *)
Theorem set_data_last_write_wins (B : Browser) (t : Math) :
  (forall d1 d2, set_data B d2 (set_data B d1 t) = set_data B d2 t) /\
  (forall e1 e2, onPaste B e2 (onPaste B e1 t) = onPaste B e2 t) /\
  (forall d incoming, merge B incoming (set_data B d t) = set_data B d t) /\
  (forall e incoming, merge B incoming (onPaste B e t) = onPaste B e t) /\
  (forall i1 i2, merge B i2 (merge B i1 t) = merge B i1 t).
Proof.
  repeat split.
Qed.

(** X4. Switching to editing twice is switching once: [enableEditing]
    builds the wrapper from the stored text alone, and leaves the record
    and the math node as they are. *)
Theorem enableEditing_idempotent (B : Browser) (t : Math) :
  enableEditing B (enableEditing B t) = enableEditing B t /\
  data (enableEditing B t) = data t /\
  mathNode (enableEditing B t) = mathNode t /\
  (forall ks,
     enableEditing B (with_element (with_childNodes ks (_element t)) t)
     = enableEditing B t).
Proof. repeat split. Qed.

(** ** Key strokes *)

Lemma get_attr_put_same (k v : jsstring) (l : list (jsstring * jsstring)) :
  get_attr k (put_attr k v l) = Some v.
Proof.
  induction l as [|[k' v'] r IH]; simpl.
  - by rewrite decide_True.
  - destruct (decide (k' = k)) as [->|Hne]; simpl.
    + by rewrite decide_True.
    + by rewrite decide_False.
Qed.

Lemma get_attr_put_other (k k0 v : jsstring) (l : list (jsstring * jsstring)) :
  k0 <> k -> get_attr k0 (put_attr k v l) = get_attr k0 l.
Proof.
  intros Hne. induction l as [|[k' v'] r IH]; simpl.
  - rewrite decide_False; [reflexivity | congruence].
  - destruct (decide (k' = k)) as [->|Hk]; simpl.
    + rewrite !decide_False; [reflexivity | congruence | congruence].
    + destruct (decide (k' = k0)); [reflexivity | exact IH].
Qed.

Lemma sameView_content (ks : list node) (e : Element) :
  sameView e (with_childNodes ks e).
Proof. repeat split. exists []. by rewrite app_nil_r. Qed.

Lemma sameView_refl (e : Element) : sameView e e.
Proof. repeat split. exists []. by rewrite app_nil_r. Qed.

Lemma sameView_trans (e1 e2 e3 : Element) :
  sameView e1 e2 -> sameView e2 e3 -> sameView e1 e3.
Proof.
  intros (Ht & Ha & l & Hl) (Ht' & Ha' & l' & Hl').
  split; [congruence|]. split.
  - intros k Hk. rewrite Ha', Ha; done.
  - exists (l ++ l')%list. by rewrite Hl', Hl, app_assoc.
Qed.

Lemma sameView_flag (v : jsstring) (e : Element) :
  sameView e (setAttribute (js "contenteditable") v e).
Proof.
  split; [reflexivity|]. split.
  - intros k Hk. unfold getAttribute. simpl. by apply get_attr_put_other.
  - exists []. simpl. by rewrite app_nil_r.
Qed.

Lemma onKeyUp_flag (B : Browser) (code : jsstring) (t : Math) :
  getAttribute (js "contenteditable") (_element (onKeyUp B code t))
  = Some (if ifSVGRendered t then js "false" else js "true").
Proof.
  unfold onKeyUp.
  set (flag := if negb (ifSVGRendered t) then js "true" else js "false").
  assert (Hflag : flag = if ifSVGRendered t then js "false" else js "true")
    by (unfold flag; by destruct (ifSVGRendered t)).
  rewrite <- Hflag.
  assert (H1 : get_attr (js "contenteditable")
                 (put_attr (js "contenteditable") flag (attributes (_element t)))
               = Some flag) by apply get_attr_put_same.
  repeat case_match; exact H1.
Qed.

(** X5. After every key stroke the container's [contenteditable] flag
    says whether the container held a graphic when the key came up:
    ["false"] with a graphic, ["true"] without. Nothing else of the block
    is touched but, possibly, the container's content: the record, the
    math node, the container's tag, its other attributes and its
    listeners stay. *)
Theorem onKeyUp_sets_editable_flag (B : Browser) (code : jsstring) (t : Math) :
  getAttribute (js "contenteditable") (_element (onKeyUp B code t))
  = Some (if ifSVGRendered t then js "false" else js "true") /\
  data (onKeyUp B code t) = data t /\
  mathNode (onKeyUp B code t) = mathNode t /\
  tagName (_element (onKeyUp B code t)) = tagName (_element t) /\
  listeners (_element (onKeyUp B code t)) = listeners (_element t) /\
  (forall k, k <> js "contenteditable" ->
     getAttribute k (_element (onKeyUp B code t)) = getAttribute k (_element t)).
Proof.
  unfold onKeyUp.
  set (flag := if negb (ifSVGRendered t) then js "true" else js "false").
  set (t1 := with_element (setAttribute (js "contenteditable") flag (_element t)) t).
  assert (Hflag : flag = if ifSVGRendered t then js "false" else js "true")
    by (unfold flag; by destruct (ifSVGRendered t)).
  assert (H1 : getAttribute (js "contenteditable") (_element t1) = Some flag)
    by apply get_attr_put_same.
  assert (H2 : forall k, k <> js "contenteditable" ->
                 getAttribute k (_element t1) = getAttribute k (_element t)).
  { intros k Hk. unfold getAttribute. simpl. by apply get_attr_put_other. }
  rewrite <- Hflag.
  destruct (bool_decide (code ≠ js "Backspace") && bool_decide (code ≠ js "Delete"));
    [by repeat split|].
  destruct (decide (textContent (_element t1) = emptyString)); by repeat split.
Qed.

(** X6. Only Backspace and Delete can change what the container shows,
    and only when the container holds no text at all: then its content is
    emptied, through the [innerHTML] setter. That is decided on the text
    alone, so a graphic without text in it is emptied just the same, the
    record keeping the text it was drawn from. With some text in the
    container, or on any other key, the content stays. *)
Theorem onKeyUp_empties_textless_content (B : Browser) (code : jsstring) (t : Math) :
  (code <> js "Backspace" -> code <> js "Delete" ->
   childNodes (_element (onKeyUp B code t)) = childNodes (_element t)) /\
  (textContent (_element t) <> emptyString ->
   childNodes (_element (onKeyUp B code t)) = childNodes (_element t)) /\
  (code = js "Backspace" \/ code = js "Delete" ->
   textContent (_element t) = emptyString ->
   childNodes (_element (onKeyUp B code t))
   = parseFragment B (tagName (_element t)) emptyString /\
   data (onKeyUp B code t) = data t).
Proof.
  unfold onKeyUp.
  set (flag := if negb (ifSVGRendered t) then js "true" else js "false").
  set (t1 := with_element (setAttribute (js "contenteditable") flag (_element t)) t).
  assert (Htc : textContent (_element t1) = textContent (_element t)) by reflexivity.
  repeat split.
  - intros Hb Hd.
    rewrite (bool_decide_eq_true_2 _ Hb), (bool_decide_eq_true_2 _ Hd). reflexivity.
  - intros Hne.
    destruct (bool_decide (code ≠ js "Backspace") && bool_decide (code ≠ js "Delete"));
      [reflexivity|].
    rewrite decide_False by (by rewrite Htc). reflexivity.
  - assert (Hk : bool_decide (code ≠ js "Backspace")
                 && bool_decide (code ≠ js "Delete") = false).
    { destruct H as [->| ->].
      - rewrite bool_decide_eq_false_2; [reflexivity | by intros Hn; apply Hn].
      - rewrite (bool_decide_eq_false_2 (js "Delete" ≠ js "Delete"));
          [apply andb_false_r | by intros Hn; apply Hn]. }
    rewrite Hk, decide_True by (by rewrite Htc). reflexivity.
  - assert (Hk : bool_decide (code ≠ js "Backspace")
                 && bool_decide (code ≠ js "Delete") = false).
    { destruct H as [->| ->].
      - rewrite bool_decide_eq_false_2; [reflexivity | by intros Hn; apply Hn].
      - rewrite (bool_decide_eq_false_2 (js "Delete" ≠ js "Delete"));
          [apply andb_false_r | by intros Hn; apply Hn]. }
    rewrite Hk, decide_True by (by rewrite Htc). reflexivity.
Qed.

Lemma onKeyUp_empties_textless_content_witness :
  let t := Scenario.renderedBlock in
  let t' := onKeyUp SmallBrowser.browser (js "Backspace") t in
  ifSVGRendered t = true /\
  childNodes (_element t') = [] /\
  get (data t') "text" = JString (js "x^2").
Proof.
  intros t t'.
  destruct (onKeyUp_empties_textless_content SmallBrowser.browser
              (js "Backspace") t) as (_ & _ & H).
  destruct H as [Hk Hd]; [by left | reflexivity |].
  split; [reflexivity|]. split.
  - unfold t'. rewrite Hk. reflexivity.
  - unfold t'. rewrite Hd. reflexivity.
Defined.

(** ** What a render pass does to the block *)

Section RenderPassMore.

Variable B : Browser.
Variable W : Window.

(** The three ways the typesetter step ends. *)
Lemma textToSVG_cases (m : Element) (s : Machine) :
  (MathJax W = None /\
   textToSVG B W m s
   = (Normal tt, {| this := this s;
                    console := console s ++ [js "not initiated mathJax"] |})) \/
  (exists mathjax err,
     MathJax W = Some mathjax /\ typeset B mathjax m = Throw err /\
     textToSVG B W m s = (Throw err, s)) \/
  (exists mathjax texNode markup,
     MathJax W = Some mathjax /\ typeset B mathjax m = Normal texNode /\
     textToSVG B W m s
     = (Normal tt,
        {| this := with_element (set_innerHTML B markup (_element (this s))) (this s);
           console := console s |})).
Proof.
  destruct (MathJax W) as [mathjax|] eqn:Ej.
  - right. rewrite (textToSVG_present B W mathjax) by exact Ej.
    destruct (typeset B mathjax m) as [texNode|err] eqn:Et.
    + right. by eexists mathjax, texNode, _.
    + left. by exists mathjax, err.
  - left. split; [reflexivity|]. by apply textToSVG_absent.
Qed.

(** The typesetter step writes the container's content and nothing else. *)
Lemma textToSVG_frame (m : Element) (s : Machine) :
  let r := textToSVG B W m s in
  data (this r.2) = data (this s) /\
  mathNode (this r.2) = mathNode (this s) /\
  sameSetup (this s) (this r.2) /\
  tagName (_element (this r.2)) = tagName (_element (this s)) /\
  attributes (_element (this r.2)) = attributes (_element (this s)) /\
  listeners (_element (this r.2)) = listeners (_element (this s)).
Proof.
  destruct (textToSVG_cases m s)
    as [[_ ->]|[(mj & err & _ & _ & ->)|(mj & tn & mk & _ & _ & ->)]];
    by repeat split.
Qed.

End RenderPassMore.

(** The record and the math node after a render pass. *)
Lemma pass_commits_text (B : Browser) (W : Window) (s : Machine) :
  let r := renderSVG B W s in
  get (data (this r.2)) "text" = currentText B (this s) /\
  (innerText B (_element (this s)) <> emptyString ->
   get (data (this r.2)) "text" = JString (innerText B (_element (this s)))) /\
  (innerText B (_element (this s)) = emptyString ->
   get (data (this r.2)) "text" = get (data (this s)) "text") /\
  (forall k, k <> "text" -> data (this r.2) !! k = data (this s) !! k) /\
  mathNode (this r.2) = Some (beforeTypesetting B W s).1 /\
  tagName (beforeTypesetting B W s).1 = tagName (currentMathNode (this s)).
Proof.
  intros r. subst r. rewrite renderSVG_steps.
  destruct (textToSVG_frame B W (beforeTypesetting B W s).1
              (beforeTypesetting B W s).2) as (Hd & Hm & _).
  assert (Ht : get (data (this (textToSVG B W (beforeTypesetting B W s).1
                                  (beforeTypesetting B W s).2).2)) "text"
               = currentText B (this s)).
  { rewrite Hd. unfold beforeTypesetting. simpl. apply get_insert_text. }
  split; [exact Ht|]. split; [|split; [|split; [|split]]].
  - intros Hne. rewrite Ht. unfold currentText, js_or. simpl.
    destruct (innerText B (_element (this s))); [by destruct Hne | reflexivity].
  - intros He. rewrite Ht. unfold currentText, js_or. by rewrite He.
  - intros k Hk. rewrite Hd. unfold beforeTypesetting. simpl.
    by rewrite lookup_insert_ne.
  - rewrite Hm. reflexivity.
  - unfold beforeTypesetting. simpl. by destruct (math W).
Qed.

(** X7. A render pass commits the text it works on, whatever becomes of
    the pass: the stored [text] is afterwards the text the container
    showed, or the text stored before if it showed none, also when the
    typesetter is absent or throws. The other fields of the record are
    as they were, and the block keeps a math node for the passes to come. *)
Theorem renderSVG_commits_text (B : Browser) (W : Window) (s : Machine) :
  let r := renderSVG B W s in
  get (data (this r.2)) "text" = currentText B (this s) /\
  (innerText B (_element (this s)) <> emptyString ->
   get (data (this r.2)) "text" = JString (innerText B (_element (this s)))) /\
  (innerText B (_element (this s)) = emptyString ->
   get (data (this r.2)) "text" = get (data (this s)) "text") /\
  (forall k, k <> "text" -> data (this r.2) !! k = data (this s) !! k) /\
  mathNode (this r.2) = Some (beforeTypesetting B W s).1 /\
  tagName (beforeTypesetting B W s).1 = tagName (currentMathNode (this s)).
Proof. exact (pass_commits_text B W s). Qed.

Lemma renderSVG_commits_text_witness :
  let s := Scenario.boot (Scenario.blockOn "x^2") in
  get (data (this (renderSVG SmallBrowser.browser Scenario.rejectingParser s).2))
    "text" = JString (js "x^2").
Proof.
  intros s.
  destruct (renderSVG_commits_text SmallBrowser.browser Scenario.rejectingParser s)
    as (_ & H & _).
  apply H. discriminate.
Defined.

(** X8. A render pass throws exactly what the typesetter throws: it ends
    by throwing [err] if and only if the typesetter's handle is there and
    its answer on the pass's math node is to throw [err]. Nothing else in
    the pass can fail: not a missing handle, not the parser. *)
Theorem renderSVG_throws_iff_typesetter_throws
  (B : Browser) (W : Window) (s : Machine) (err : jsstring) :
  (renderSVG B W s).1 = Throw err <->
  exists mathjax,
    MathJax W = Some mathjax /\
    typeset B mathjax (beforeTypesetting B W s).1 = Throw err.
Proof.
  rewrite renderSVG_steps.
  set (m := (beforeTypesetting B W s).1). set (s1 := (beforeTypesetting B W s).2).
  destruct (textToSVG_cases B W m s1)
    as [[Hj ->]|[(mj & err0 & Hj & Ht & ->)|(mj & tn & mk & Hj & Ht & ->)]]; simpl.
  - split; [discriminate|]. intros (mj & Hj' & _). congruence.
  - split.
    + intros [= <-]. by exists mj.
    + intros (mj' & Hj' & Ht'). congruence.
  - split; [discriminate|]. intros (mj' & Hj' & Ht'). congruence.
Qed.

(** X9. The parser step never throws and never touches the block: it
    completes normally whatever the parser does, logs one line exactly
    when the parser's handle is absent, and hands back the math node with
    its tag and attributes, written with the parser's TeX, or with the
    raw text if the parser threw, or not written at all if the handle is
    absent. *)
Theorem getTexSyntax_never_throws
  (B : Browser) (W : Window) (m : Element) (s : Machine) :
  exists m',
    getTexSyntax B W m s
    = (Normal m',
       {| this := this s;
          console := (console s ++
                      match math W with
                      | None => [js "not initiated mathjs"]
                      | Some _ => []
                      end)%list |}) /\
    tagName m' = tagName m /\ attributes m' = attributes m /\
    match math W with
    | None => m' = m
    | Some mathjs =>
        childNodes m'
        = parseFragment B (tagName m)
            (match texOf mathjs (get (data (this s)) "text") with
             | Normal tex => tex
             | Throw _ => toDOMString (get (data (this s)) "text")
             end)
    end.
Proof.
  destruct (math W) as [mathjs|] eqn:Hm.
  - eexists. rewrite (getTexSyntax_present B W mathjs) by exact Hm.
    rewrite app_nil_r. destruct s. by repeat split.
  - eexists. rewrite getTexSyntax_absent by exact Hm. by repeat split.
Qed.

(** What the typesetter step does to the container is decided by the
    math node and the container. *)
Lemma textToSVG_container (B : Browser) (W : Window) (m : Element)
    (s1 s2 : Machine) :
  _element (this s1) = _element (this s2) ->
  (textToSVG B W m s1).1 = (textToSVG B W m s2).1 /\
  _element (this (textToSVG B W m s1).2) = _element (this (textToSVG B W m s2).2).
Proof.
  intros He. destruct (MathJax W) as [mathjax|] eqn:Ej.
  - rewrite !(textToSVG_present B W mathjax) by exact Ej.
    destruct (typeset B mathjax m); simpl; rewrite ?He; by split.
  - rewrite !textToSVG_absent by exact Ej. by split.
Qed.

(** X10. With the parser's handle absent a render pass does not depend
    on the text at all: the typesetter is given the math node as the
    last pass left it (a fresh, empty one on the first pass), so that two
    blocks that differ in their records only end the pass in the same
    way with the same container. *)
Theorem render_without_parser_ignores_text
  (B : Browser) (W : Window) (s : Machine) (o : obj) :
  math W = None ->
  let s' := {| this := with_data o (this s); console := console s |} in
  (beforeTypesetting B W s).1 = currentMathNode (this s) /\
  (renderSVG B W s').1 = (renderSVG B W s).1 /\
  _element (this (renderSVG B W s').2) = _element (this (renderSVG B W s).2) /\
  mathNode (this (renderSVG B W s').2) = mathNode (this (renderSVG B W s).2).
Proof.
  intros Hm s'.
  assert (Hb : forall x, (beforeTypesetting B W x).1 = currentMathNode (this x)).
  { intros x. unfold beforeTypesetting. by rewrite Hm. }
  split; [apply Hb|].
  destruct (pass_commits_text B W s) as (_ & _ & _ & _ & Hn & _).
  destruct (pass_commits_text B W s') as (_ & _ & _ & _ & Hn' & _).
  rewrite Hn, Hn', !Hb. rewrite !renderSVG_steps, !Hb.
  destruct (textToSVG_container B W (currentMathNode (this s))
              (beforeTypesetting B W s') .2 (beforeTypesetting B W s).2)
    as [Hc He]; [reflexivity|].
  by repeat split.
Qed.

Lemma render_without_parser_ignores_text_witness :
  let s := Scenario.boot (Scenario.blockOn "x^2") in
  let s' := Scenario.boot (Scenario.blockOn "2+2") in
  mathNode (this (renderSVG SmallBrowser.browser Scenario.typesetterOnly s).2)
  = Some (createElement (js "img")).
Proof.
  intros s s'.
  destruct (render_without_parser_ignores_text SmallBrowser.browser
              Scenario.typesetterOnly s (data (this s')) eq_refl)
    as (Hm & _ & _ & Hn).
  rewrite <- Hn. reflexivity.
Defined.

(** X11. When the parser answers with TeX, the math node is written with
    that TeX and the typesetter step works on it, while the record keeps
    the raw text: the TeX is never stored. *)
Theorem parsed_tex_reaches_typesetter
  (B : Browser) (W : Window) (mathjs : MathJS) (tex : jsstring) (s : Machine) :
  math W = Some mathjs ->
  texOf mathjs (currentText B (this s)) = Normal tex ->
  let m := set_innerHTML B tex (currentMathNode (this s)) in
  exists s1,
    renderSVG B W s = textToSVG B W m s1 /\
    childNodes m = parseFragment B (tagName (currentMathNode (this s))) tex /\
    console s1 = console s /\
    _element (this s1) = _element (this s) /\
    get (data (this (renderSVG B W s).2)) "text" = currentText B (this s) /\
    mathNode (this (renderSVG B W s).2) = Some m.
Proof.
  intros Hm Ht m.
  destruct (pass_commits_text B W s) as (Hd & _ & _ & _ & Hn & _).
  assert (Hb : (beforeTypesetting B W s).1 = m).
  { unfold beforeTypesetting. rewrite Hm. simpl. by rewrite Ht. }
  exists (beforeTypesetting B W s).2.
  split; [by rewrite renderSVG_steps, Hb|].
  split; [reflexivity|].
  split; [unfold beforeTypesetting; rewrite Hm; simpl; apply app_nil_r|].
  split; [reflexivity|].
  split; [exact Hd|]. by rewrite Hn, Hb.
Qed.

(** ** [render] and the toggle *)

Lemma render_unfold (B : Browser) (W : Window) (s : Machine) :
  render B W s
  = match renderSVG B W s with
    | (Normal _, s') =>
        let e := addEventListener (js "dblclick") HOnClick (_element (this s')) in
        (Normal e, {| this := with_element e (this s'); console := console s' |})
    | (Throw err, s') => (Throw err, s')
    end.
Proof.
  unfold render, mbind, M_bind.
  by destruct (renderSVG B W s) as [[[]|err] s'].
Qed.

(** X12. [render] is a render pass followed by the registration of the
    toggle: when the pass completes, the element returned is the
    block's container, as the pass left it, with one more [dblclick]
    listener after those it had (so every call of [render] adds one).
    When the pass throws, [render] throws the same and no listener is
    registered. *)
Theorem render_registers_toggle (B : Browser) (W : Window) (s : Machine) :
  let p := renderSVG B W s in
  let r := render B W s in
  (p.1 = Normal tt ->
   r.1 = Normal (_element (this r.2)) /\
   listeners (_element (this r.2))
   = (listeners (_element (this s)) ++ [(js "dblclick", HOnClick)])%list /\
   childNodes (_element (this r.2)) = childNodes (_element (this p.2)) /\
   data (this r.2) = data (this p.2) /\
   console r.2 = console p.2) /\
  (forall err, p.1 = Throw err ->
   r = (Throw err, p.2) /\
   listeners (_element (this r.2)) = listeners (_element (this s))).
Proof.
  intros p r. subst p r. rewrite render_unfold.
  assert (Hl : listeners (_element (this (renderSVG B W s).2))
               = listeners (_element (this s))).
  { rewrite renderSVG_steps.
    destruct (textToSVG_frame B W (beforeTypesetting B W s).1
                (beforeTypesetting B W s).2) as (_ & _ & _ & _ & _ & ->).
    reflexivity. }
  destruct (renderSVG B W s) as [[[]|err0] s'] eqn:Er; simpl in *.
  - split; [|discriminate]. intros _. rewrite Hl. by repeat split.
  - split; [discriminate|]. intros err [= <-]. by split.
Qed.

Lemma render_registers_toggle_witness :
  let s := Scenario.boot (Scenario.blockOn "x^2") in
  let r := render SmallBrowser.browser Scenario.typesetterOnly s in
  let r2 := render SmallBrowser.browser Scenario.typesetterOnly r.2 in
  listeners (_element (this r2.2))
  = [(js "keyup", HOnKeyUp); (js "dblclick", HOnClick); (js "dblclick", HOnClick)].
Proof.
  intros s r r2.
  destruct (render_registers_toggle SmallBrowser.browser Scenario.typesetterOnly
              r.2) as [H _].
  destruct (H eq_refl) as (_ & Hl & _).
  unfold r2. rewrite Hl. reflexivity.
Defined.

(** X13. When a render pass has drawn a graphic, the next double click
    brings back, inside the editable wrapper, the text that pass
    committed: what the container showed when the pass began (or the
    stored text, if it showed none). *)
Theorem toggle_brings_back_committed_text (B : Browser) (W : Window) (s : Machine) :
  let p := renderSVG B W s in
  ifSVGRendered (this p.2) = true ->
  let r := onClick B W p.2 in
  r.1 = Normal tt /\
  childNodes (_element (this r.2))
  = parseFragment B (tagName (_element (this s)))
      (outerHTML B
         (ElementNode (js "div") [(js "contenteditable", js "true")]
            (parseFragment B (js "div")
               (toDOMString (currentText B (this s)))))) /\
  data (this r.2) = data (this p.2) /\
  console r.2 = console p.2.
Proof.
  intros p Hr r. subst r.
  destruct (pass_commits_text B W s) as (Ht & _).
  assert (Htag : tagName (_element (this p.2)) = tagName (_element (this s))).
  { unfold p. rewrite renderSVG_steps.
    by destruct (textToSVG_frame B W (beforeTypesetting B W s).1
                   (beforeTypesetting B W s).2) as (_ & _ & _ & -> & _). }
  fold p in Ht.
  unfold onClick, mbind, M_bind, gets, modify. rewrite Hr. simpl.
  split; [reflexivity|]. split; [|by split].
  unfold set_innerHTML. simpl. by rewrite Htag, Ht.
Qed.

Lemma toggle_brings_back_committed_text_witness :
  let s := Scenario.boot (Scenario.blockOn "x^2") in
  let p := renderSVG SmallBrowser.browser Scenario.typesetterOnly s in
  let r := onClick SmallBrowser.browser Scenario.typesetterOnly p.2 in
  childNodes (_element (this r.2))
  = [ElementNode (js "div") [(js "contenteditable", js "true")]
       [TextNode (js "x^2")]].
Proof.
  intros s p r.
  destruct (toggle_brings_back_committed_text SmallBrowser.browser
              Scenario.typesetterOnly s eq_refl) as (_ & Hk & _).
  unfold r, p. rewrite Hk. reflexivity.
Defined.

(** ** What no method changes *)

Lemma onKeyUp_sets_editable_flag_frame (B : Browser) (code : jsstring) (t : Math) :
  tagName (_element (onKeyUp B code t)) = tagName (_element t) /\
  listeners (_element (onKeyUp B code t)) = listeners (_element t) /\
  (forall k, k <> js "contenteditable" ->
     getAttribute k (_element (onKeyUp B code t)) = getAttribute k (_element t)).
Proof.
  unfold onKeyUp.
  set (flag := if negb (ifSVGRendered t) then js "true" else js "false").
  assert (H2 : forall k, k <> js "contenteditable" ->
                 get_attr k (put_attr (js "contenteditable") flag
                               (attributes (_element t)))
                 = getAttribute k (_element t)).
  { intros k Hk. by apply get_attr_put_other. }
  repeat case_match; by repeat split.
Qed.

(** X14. The container is made once: no method changes its tag, and
    only [onKeyUp] changes an attribute (the [contenteditable] flag) and
    only [render] adds a listener; the setter, [merge], [onPaste],
    [enableEditing], a render pass and the toggle write its content and
    nothing else of it. The block's [api], [_CSS] and [_placeholder] are
    never assigned again. *)
Theorem container_made_once (B : Browser) (W : Window) (s : Machine) :
  let t := this s in
  let kept (t' : Math) :=
    tagName (_element t') = tagName (_element t) /\
    attributes (_element t') = attributes (_element t) /\
    listeners (_element t') = listeners (_element t) /\
    sameSetup t t' in
  (forall d, kept (set_data B d t)) /\
  (forall incoming, kept (merge B incoming t)) /\
  (forall event, kept (onPaste B event t)) /\
  kept (enableEditing B t) /\
  kept (this (renderSVG B W s).2) /\
  kept (this (onClick B W s).2) /\
  (forall code, sameView (_element t) (_element (onKeyUp B code t)) /\
                sameSetup t (onKeyUp B code t)) /\
  (sameView (_element t) (_element (this (render B W s).2)) /\
   attributes (_element (this (render B W s).2)) = attributes (_element t) /\
   sameSetup t (this (render B W s).2)).
Proof.
  intros t kept.
  assert (Hp : kept (this (renderSVG B W s).2)).
  { rewrite renderSVG_steps.
    destruct (textToSVG_frame B W (beforeTypesetting B W s).1
                (beforeTypesetting B W s).2) as (_ & _ & Hs & Ht & Ha & Hl).
    unfold kept. rewrite Ht, Ha, Hl. repeat split; apply Hs. }
  split; [by repeat split|]. split; [by repeat split|].
  split; [by repeat split|]. split; [by repeat split|].
  split; [exact Hp|]. split; [|split].
  - unfold onClick, mbind, M_bind, gets, modify.
    destruct (ifSVGRendered (this s)); [by repeat split | exact Hp].
  - intros code.
    destruct (onKeyUp_sets_editable_flag_frame B code t) as (Ht & Hl & Ha).
    split; [|unfold onKeyUp; repeat case_match; by repeat split].
    split; [exact Ht|]. split; [exact Ha|].
    exists []. by rewrite Hl, app_nil_r.
  - rewrite render_unfold.
    destruct Hp as (Ht & Ha & Hl & Hs).
    destruct (renderSVG B W s) as [[[]|err] s']; simpl in *.
    + split; [|split; [exact Ha | exact Hs]].
      split; [exact Ht|]. split; [intros k _; unfold getAttribute; simpl; by rewrite Ha|].
      eexists. simpl. by rewrite Hl.
    + split; [|split; [exact Ha | exact Hs]].
      split; [exact Ht|]. split; [intros k _; unfold getAttribute; by rewrite Ha|].
      exists []. by rewrite Hl, app_nil_r.
Qed.

Lemma container_frame_of_pass (B : Browser) (W : Window) (s : Machine) :
  tagName (_element (this (renderSVG B W s).2)) = tagName (_element (this s)) /\
  attributes (_element (this (renderSVG B W s).2)) = attributes (_element (this s)) /\
  listeners (_element (this (renderSVG B W s).2)) = listeners (_element (this s)).
Proof.
  rewrite renderSVG_steps.
  destruct (textToSVG_frame B W (beforeTypesetting B W s).1
              (beforeTypesetting B W s).2) as (_ & _ & _ & Ht & Ha & Hl).
  by rewrite Ht, Ha, Hl.
Qed.

(** X15. The container as constructed is a [div], editable, with the
    configured placeholder (the default, empty one when the
    configuration has none or an empty one), one [keyup] listener and no
    math node yet. A render pass leaves it editable even when it draws a
    graphic: the flag turns ["false"] only with the first key stroke
    that finds the graphic there. *)
Theorem constructed_container_stays_editable
  (B : Browser) (W : Window) (d : jsdata) (config : Config) (a : API)
  (log : list jsstring) :
  let s := {| this := constructor B d config a; console := log |} in
  let p := renderSVG B W s in
  tagName (_element (this s)) = js "div" /\
  getAttribute (js "contenteditable") (_element (this s)) = Some (js "true") /\
  getAttribute (js "data-placeholder") (_element (this s))
  = Some (match placeholder config with
          | JString (c :: r) => c :: r
          | _ => DEFAULT_PLACEHOLDER
          end) /\
  listeners (_element (this s)) = [(js "keyup", HOnKeyUp)] /\
  mathNode (this s) = None /\
  getAttribute (js "contenteditable") (_element (this p.2)) = Some (js "true") /\
  (forall code,
     ifSVGRendered (this p.2) = true ->
     getAttribute (js "contenteditable") (_element (onKeyUp B code (this p.2)))
     = Some (js "false")).
Proof.
  intros s p.
  assert (H1 : getAttribute (js "contenteditable") (_element (this s))
               = Some (js "true")) by reflexivity.
  split; [reflexivity|]. split; [exact H1|]. split.
  { unfold s, constructor. simpl.
    destruct (placeholder config) as [| |[|c r]]; reflexivity. }
  split; [reflexivity|]. split; [reflexivity|]. split.
  - destruct (container_frame_of_pass B W s) as (_ & Ha & _).
    unfold getAttribute in *. fold p in Ha. by rewrite Ha.
  - intros code Hr.
    by rewrite onKeyUp_flag, Hr.
Qed.

Lemma constructed_container_stays_editable_witness :
  let s := Scenario.boot (Scenario.blockOn "x^2") in
  let p := renderSVG SmallBrowser.browser Scenario.typesetterOnly s in
  ifSVGRendered (this p.2) = true /\
  getAttribute (js "contenteditable") (_element (this p.2)) = Some (js "true") /\
  getAttribute (js "contenteditable")
    (_element (onKeyUp SmallBrowser.browser (js "KeyA") (this p.2)))
  = Some (js "false").
Proof.
  intros s p.
  destruct (constructed_container_stays_editable SmallBrowser.browser
              Scenario.typesetterOnly
              (DObject (record (JString (js "x^2")))) Scenario.noConfig
              Scenario.hostAPI []) as (_ & _ & _ & _ & _ & He & Hk).
  split; [reflexivity|]. split; [exact He|]. apply Hk. reflexivity.
Defined.

Lemma parsed_tex_reaches_typesetter_witness :
  let s := Scenario.boot (Scenario.blockOn "x^2") in
  let p := renderSVG SmallBrowser.browser Scenario.allLoaded s in
  mathNode (this p.2)
  = Some (with_childNodes [TextNode (js "{x^2}")] (createElement (js "img"))) /\
  get (data (this p.2)) "text" = JString (js "x^2").
Proof.
  intros s p.
  destruct (parsed_tex_reaches_typesetter SmallBrowser.browser Scenario.allLoaded
              Scenario.bracingMath (js "{x^2}") s eq_refl eq_refl)
    as (s1 & _ & _ & _ & _ & Hd & Hn).
  split; [unfold p; rewrite Hn; reflexivity | exact Hd].
Defined.
